(** * MCP client: the query-resolution loop of [mcp-client-typescript/index.ts]

    A shallow embedding of the class [MCPClient] ([connectToServer],
    [processQuery], [cleanup]).  The two remote collaborators of the class,
    the language-model service ([this.anthropic]) and the tool host
    ([this.mcp]), are not part of the program: they are represented by an
    environment [Env] of oracles that answer each request as a function of
    everything that was requested before.  Every request leaves an [Event] in a
    chronological log, so that statements about "which calls are made, in
    which order, with which arguments" are statements about that log.

    JavaScript exceptions are explicit: a computation of type [M A] maps a
    state to a completion ([Normal a] or [Throw e]) and a state.  The state
    survives a throw, as the fields of [this] do. *)

From Stdlib Require Import String Ascii ZArith List Bool Arith Lia DecimalString.
From ExtLib Require Import Structures.Monad Structures.MonadExc.
Import ListNotations.
Import MonadNotation.
Local Open Scope string_scope.
Local Open Scope monad_scope.
Set Warnings "-register-all".

(** ** JavaScript values that cross the wire *)

(** A value parsed from a JSON document.  Numbers are restricted to
    integers; object members keep their order, as the properties of a
    parsed object do. *)
Inductive Json : Type :=
| JNull
| JBool (b : bool)
| JNumber (n : Z)
| JString (s : string)
| JArray (items : list Json)
| JObject (members : list (string * Json)).

(** The line-feed character of the separator passed to [join]. *)
Definition LF : string := String (ascii_of_nat 10) EmptyString.

Module JSON.

Definition hex_digit (n : nat) : ascii :=
  match n with
  | 0 => "0" | 1 => "1" | 2 => "2" | 3 => "3" | 4 => "4" | 5 => "5"
  | 6 => "6" | 7 => "7" | 8 => "8" | 9 => "9" | 10 => "a" | 11 => "b"
  | 12 => "c" | 13 => "d" | 14 => "e" | _ => "f"
  end%char.

(** One character of a quoted JSON string. *)
Definition quote_char (c : ascii) : string :=
  let n := nat_of_ascii c in
  if Nat.eqb n 34 then String "\" (String c EmptyString)
  else if Nat.eqb n 92 then String "\" (String "\" EmptyString)
  else if Nat.eqb n 8 then "\b"
  else if Nat.eqb n 9 then "\t"
  else if Nat.eqb n 10 then "\n"
  else if Nat.eqb n 12 then "\f"
  else if Nat.eqb n 13 then "\r"
  else if Nat.ltb n 32 then
    "\u00" ++ String (hex_digit (n / 16)) (String (hex_digit (n mod 16)) EmptyString)
  else String c EmptyString.

Fixpoint quote_body (s : string) : string :=
  match s with
  | EmptyString => EmptyString
  | String c rest => quote_char c ++ quote_body rest
  end.

Definition quote (s : string) : string :=
  String (ascii_of_nat 34) (quote_body s ++ String (ascii_of_nat 34) EmptyString).

(** [JSON.stringify] with no indentation argument.  It prints a number in
    plain decimal and the members of an object in the order of the list;
    that is what JavaScript prints for numbers that are safe integers and
    for objects whose keys are distinct and not made of digits only (see
    [compact_json] below). *)
Fixpoint stringify (j : Json) : string :=
  match j with
  | JNull => "null"
  | JBool true => "true"
  | JBool false => "false"
  | JNumber n => NilZero.string_of_int (Z.to_int n)
  | JString s => quote s
  | JArray items => "[" ++ String.concat "," (map stringify items) ++ "]"
  | JObject members =>
      "{" ++ String.concat ","
               (map (fun kv => quote (fst kv) ++ ":" ++ stringify (snd kv)) members)
          ++ "}"
  end.

End JSON.

(** [String.prototype.endsWith], on a suffix of ASCII characters. *)
Definition endsWith (s suffix : string) : bool :=
  let n := String.length s in
  let k := String.length suffix in
  if Nat.leb k n then String.eqb (substring (n - k) k s) suffix else false.

(** [Array.prototype.join] on an array of strings. *)
Definition join (sep : string) (parts : list string) : string :=
  String.concat sep parts.

(** A thrown value: an error object with its [name] and [message]. *)
Record JsError : Type := mkError { err_name : string; err_message : string }.

(** ** The data of the two SDKs that the class touches *)

Inductive Role : Type := User | Assistant.

(** [MessageParam]: one turn of the conversation. *)
Record MessageParam : Type := mkMessageParam {
  role : Role;
  content : Json
}.

(** [Tool], as given to the language model. *)
Record Tool : Type := mkTool {
  name : string;
  description : option string;
  input_schema : Json
}.

(** A tool as listed by the tool host. *)
Record McpTool : Type := mkMcpTool {
  mcp_name : string;
  mcp_description : option string;
  inputSchema : Json
}.

(** A block of a model response.  [processQuery] tells blocks apart by their
    [type] field only: ["text"], ["tool_use"], anything else. *)
Inductive ContentBlock : Type :=
| TextBlock (text : string)
| ToolUseBlock (id : string) (toolName : string) (input : Json)
| OtherBlock (type : string).

(** The part of a model response that [processQuery] reads. *)
Record Message : Type := mkMessage { response_content : list ContentBlock }.

(** The body of [anthropic.messages.create].  [p_tools] is [None] when the
    property is absent from the object literal. *)
Record MessageCreateParams : Type := mkParams {
  p_model : string;
  p_max_tokens : Z;
  p_messages : list MessageParam;
  p_tools : option (list Tool)
}.

(** The part of a [callTool] result that [processQuery] reads. *)
Record CallToolResult : Type := mkCallToolResult { result_content : Json }.

(** The arguments of [new StdioClientTransport]. *)
Record StdioClientTransport : Type := mkTransport {
  command : string;
  args : list string
}.

(** What [console.log] is given after its label. *)
Inductive LogArg : Type :=
| LogNames (names : list string)
| LogError (e : JsError).

(** ** Requests to the outside world *)

Inductive Event : Type :=
| EvCreate (params : MessageCreateParams)
| EvConnect (t : StdioClientTransport)
| EvListTools
| EvCallTool (toolName : string) (toolArgs : Json)
| EvClose
| EvLog (label : string) (arg : LogArg).

(** The environment: the platform constants read by [connectToServer] and
    the answers of the remote services.  An answer may depend on the whole
    log of earlier requests, and is either a thrown error or a value. *)
Record Env : Type := mkEnv {
  platform : string;
  execPath : string;
  messages_create : list Event -> MessageCreateParams -> JsError + Message;
  listTools : list Event -> JsError + list McpTool;
  callTool : list Event -> string -> Json -> JsError + CallToolResult;
  close_channel : list Event -> JsError + unit
}.

(** ** State and the monad of the embedding *)

(** Fields of [MCPClient] held by the program itself. *)
Record MCPClient : Type := mkClient {
  transport : option StdioClientTransport;
  tools : list Tool
}.

(** State of the tool-host channel owned by [this.mcp]. *)
Inductive Channel : Type := NotConnected | Connected | Closed.

Record State : Type := mkState {
  client : MCPClient;
  channel : Channel;
  events : list Event
}.

(** The state right after [new MCPClient()]. *)
Definition new_MCPClient (log : list Event) : State :=
  {| client := {| transport := None; tools := [] |};
     channel := NotConnected;
     events := log |}.

Inductive Completion (A : Type) : Type :=
| Normal (a : A)
| Throw (e : JsError).
Arguments Normal {A} a.
Arguments Throw {A} e.

Definition M (A : Type) : Type := State -> Completion A * State.

#[global] Instance Monad_M : Monad M := {|
  ret := fun A (a : A) s => (Normal a, s);
  bind := fun A B (c : M A) (k : A -> M B) s =>
    match c s with
    | (Normal a, s') => k a s'
    | (Throw e, s') => (Throw e, s')
    end
|}.

(** [throw] and [try { } catch (e) { }]. *)
#[global] Instance MonadExc_M : MonadExc JsError M := {|
  raise := fun A e s => (Throw e, s);
  catch := fun A (c : M A) (h : JsError -> M A) s =>
    match c s with
    | (Normal a, s') => (Normal a, s')
    | (Throw e, s') => h e s'
    end
|}.

Definition get_client : M MCPClient := fun s => (Normal (client s), s).

Definition set_transport (t : option StdioClientTransport) : M unit := fun s =>
  (Normal tt,
   {| client := {| transport := t; tools := tools (client s) |};
      channel := channel s; events := events s |}).

Definition set_tools (ts : list Tool) : M unit := fun s =>
  (Normal tt,
   {| client := {| transport := transport (client s); tools := ts |};
      channel := channel s; events := events s |}).

(** Append a request to the log. *)
Definition record (ev : Event) (s : State) : State :=
  {| client := client s; channel := channel s; events := events s ++ [ev] |}.

Definition of_answer {A : Type} (r : JsError + A) (s : State) : Completion A * State :=
  match r with
  | inr a => (Normal a, s)
  | inl e => (Throw e, s)
  end.

Definition console_log (label : string) (arg : LogArg) : M unit := fun s =>
  (Normal tt, record (EvLog label arg) s).

(** ** The class [MCPClient] *)

Section MCPClient.

Variable env : Env.

(** *** Calls into the two SDKs *)

(** [await this.anthropic.messages.create(params)]. *)
Definition anthropic_messages_create (params : MessageCreateParams) : M Message :=
  fun s => of_answer (messages_create env (events s) params) (record (EvCreate params) s).

(** [await this.mcp.callTool({name, arguments})]. *)
Definition mcp_callTool (toolName : string) (toolArgs : Json) : M CallToolResult :=
  fun s => of_answer (callTool env (events s) toolName toolArgs)
                     (record (EvCallTool toolName toolArgs) s).

(** [await this.mcp.listTools()]. *)
Definition mcp_listTools : M (list McpTool) :=
  fun s => of_answer (listTools env (events s)) (record EvListTools s).

(** [this.mcp.connect(transport)].  The call is not awaited: the promise is
    dropped, so neither its completion nor its rejection reaches the
    caller.  What remains is the request itself. *)
Definition mcp_connect (t : StdioClientTransport) : M unit := fun s =>
  (Normal tt,
   {| client := client s; channel := Connected; events := events s ++ [EvConnect t] |}).

(** Modelled from the spec: the tool-host client's [close] (the method
    [Client.close] of the protocol SDK, which is not among the sources).
    The spec says that shutdown "closes the Tool Host channel" and is
    "idempotently tolerated if already closed": closing a closed channel
    does nothing and succeeds; closing any other channel is a request
    whose answer is the environment's. *)
Definition mcp_close : M unit := fun s =>
  match channel s with
  | Closed => (Normal tt, s)
  | _ =>
      match close_channel env (events s) with
      | inr _ =>
          (Normal tt,
           {| client := client s; channel := Closed; events := events s ++ [EvClose] |})
      | inl e => (Throw e, record EvClose s)
      end
  end.

(** *** [connectToServer] *)

(** The callback of [toolsResult.tools.map]. *)
Definition to_Tool (tool : McpTool) : Tool :=
  {| name := mcp_name tool;
     description := mcp_description tool;
     input_schema := inputSchema tool |}.

Definition InvalidScriptType : JsError :=
  mkError "Error" "Server script must be a .js or .py file".

Definition connectToServer (serverScriptPath : string) : M unit :=
  catch
    (let isJs := endsWith serverScriptPath ".js" in
     let isPy := endsWith serverScriptPath ".py" in
     if negb isJs && negb isPy then raise InvalidScriptType
     else
       let command :=
         if isPy
         then (if String.eqb (platform env) "win32" then "python" else "python3")
         else execPath env in
       let t := {| command := command; args := [serverScriptPath] |} in
       set_transport (Some t) ;;
       mcp_connect t ;;
       toolsResult <- mcp_listTools ;;
       set_tools (map to_Tool toolsResult) ;;
       this <- get_client ;;
       console_log "Connected to server with tools:" (LogNames (map name (tools this))))
    (fun e =>
       console_log "Failed to connect to MCP server: " (LogError e) ;;
       raise e).

(** *** [processQuery] *)

(** The three arrays local to one call of [processQuery]. *)
Record Locals : Type := mkLocals {
  messages : list MessageParam;
  finalText : list string;
  toolResults : list CallToolResult
}.

Definition push_message (m : MessageParam) (l : Locals) : Locals :=
  {| messages := messages l ++ [m];
     finalText := finalText l;
     toolResults := toolResults l |}.

Definition push_finalText (t : string) (l : Locals) : Locals :=
  {| messages := messages l;
     finalText := finalText l ++ [t];
     toolResults := toolResults l |}.

Definition push_toolResult (r : CallToolResult) (l : Locals) : Locals :=
  {| messages := messages l;
     finalText := finalText l;
     toolResults := toolResults l ++ [r] |}.

Definition MODEL : string := "claude-3-5-sonnet-20241022".

(** The trace line pushed after a tool call. *)
Definition calling_line (toolName : string) (toolArgs : Json) : string :=
  "[Calling tool " ++ toolName ++ " with args " ++ JSON.stringify toolArgs ++ "]".

(** Reading [response.content[0].type] when [content] is empty reads a
    property of [undefined]. *)
Definition undefined_type_error : JsError :=
  mkError "TypeError" "Cannot read properties of undefined (reading 'type')".

(** The argument of the last [finalText.push]: the [text] of
    [response.content[0]] when its [type] is ["text"], the empty string
    otherwise. *)
Definition first_text (blocks : list ContentBlock) : M string :=
  match blocks with
  | [] => raise undefined_type_error
  | TextBlock text :: _ => ret text
  | _ :: _ => ret EmptyString
  end.

(** The body of the [for ... of] loop, for one block. *)
Definition dispatch_block (block : ContentBlock) (l : Locals) : M Locals :=
  match block with
  | TextBlock text => ret (push_finalText text l)
  | ToolUseBlock _ toolName toolArgs =>
      result <- mcp_callTool toolName toolArgs ;;
      let l := push_toolResult result l in
      let l := push_finalText (calling_line toolName toolArgs) l in
      let l := push_message {| role := User; content := result_content result |} l in
      response <- anthropic_messages_create
                    {| p_model := MODEL; p_max_tokens := 1000;
                       p_messages := messages l; p_tools := None |} ;;
      text <- first_text (response_content response) ;;
      ret (push_finalText text l)
  | OtherBlock _ => ret l
  end.

(** [for (const content of response.content) { ... }]. *)
Fixpoint dispatch (blocks : list ContentBlock) (l : Locals) : M Locals :=
  match blocks with
  | [] => ret l
  | block :: rest => l' <- dispatch_block block l ;; dispatch rest l'
  end.

Definition processQuery (query : string) : M string :=
  let l := {| messages := [ {| role := User; content := JString query |} ];
              finalText := [];
              toolResults := [] |} in
  this <- get_client ;;
  response <- anthropic_messages_create
                {| p_model := MODEL; p_max_tokens := 1000;
                   p_messages := messages l; p_tools := Some (tools this) |} ;;
  l' <- dispatch (response_content response) l ;;
  ret (join LF (finalText l')).

(** *** [cleanup] *)

Definition cleanup : M unit := mcp_close.

End MCPClient.

(** ** Vocabulary of the statements *)

Local Open Scope list_scope.

(** The tool requests of a response, in order: name and arguments of each
    [tool_use] block. *)
Definition tool_uses (blocks : list ContentBlock) : list (string * Json) :=
  flat_map (fun b => match b with
                     | ToolUseBlock _ n a => [(n, a)]
                     | _ => []
                     end) blocks.

(** The strings of the [text] blocks of a response, in order. *)
Definition texts (blocks : list ContentBlock) : list string :=
  flat_map (fun b => match b with
                     | TextBlock t => [t]
                     | _ => []
                     end) blocks.

(** The [callTool] requests of a log, in order. *)
Definition calls_of (log : list Event) : list (string * Json) :=
  flat_map (fun ev => match ev with
                      | EvCallTool n a => [(n, a)]
                      | _ => []
                      end) log.

(** The conversation a query starts with. *)
Definition user_turn (j : Json) : MessageParam := {| role := User; content := j |}.

(** The request of the initial model call: the query alone, with the cached
    catalog attached. *)
Definition initial_request (query : string) (catalog : list Tool) : MessageCreateParams :=
  {| p_model := MODEL; p_max_tokens := 1000;
     p_messages := [user_turn (JString query)]; p_tools := Some catalog |}.

(** The request of a follow-up model call: a conversation, no catalog. *)
Definition followup_request (conversation : list MessageParam) : MessageCreateParams :=
  {| p_model := MODEL; p_max_tokens := 1000;
     p_messages := conversation; p_tools := None |}.

(** What a follow-up response contributes to the answer. *)
Definition consumed_text (b : ContentBlock) : string :=
  match b with
  | TextBlock t => t
  | _ => EmptyString
  end.

(** The local arrays after pushing the strings [ts] onto [finalText]. *)
Definition push_texts (ts : list string) (l : Locals) : Locals :=
  {| messages := messages l;
     finalText := finalText l ++ ts;
     toolResults := toolResults l |}.

(** The state after the queries [qs] were processed one after the other on
    the same client, whatever their outcomes. *)
Definition after_queries (env : Env) (qs : list string) (s : State) : State :=
  fold_left (fun st q => snd (processQuery env q st)) qs s.

(** A computation that touches nothing but the log of requests. *)
Definition only_logs {A : Type} (c : M A) : Prop :=
  forall s, client (snd (c s)) = client s /\ channel (snd (c s)) = channel s.

(** [aborts_on fatal c]: the requests of [c] extend the log, and a request
    that is [fatal] with error [e] at the moment it is made is the last one
    and makes [c] throw [e]. *)
Definition aborts_on (fatal : list Event -> Event -> JsError -> Prop)
           {A : Type} (c : M A) : Prop :=
  forall s, exists new,
    events (snd (c s)) = events s ++ new /\
    forall h ev t e,
      new = h ++ ev :: t -> fatal (events s ++ h) ev e ->
      fst (c s) = Throw e /\ t = [].

(** The environment answers the request [ev], made at log [log], with the
    error [e]. *)
Definition rejected (env : Env) (log : list Event) (ev : Event) (e : JsError) : Prop :=
  match ev with
  | EvCreate p => messages_create env log p = inl e
  | EvCallTool n a => callTool env log n a = inl e
  | _ => False
  end.

(** The request [ev], made at log [log], is a follow-up model call that the
    environment answers with an empty sequence of blocks. *)
Definition empty_followup (env : Env) (log : list Event) (ev : Event) (e : JsError) : Prop :=
  match ev with
  | EvCreate p =>
      p_tools p = None /\
      messages_create env log p = inr {| response_content := [] |} /\
      e = undefined_type_error
  | _ => False
  end.

(** A request other than a model call with a catalog attached. *)
Definition not_initial (ev : Event) : Prop :=
  match ev with
  | EvCreate p => p_tools p = None
  | _ => True
  end.

(** [emits P c]: the requests of [c] extend the log, and each of them
    satisfies [P]. *)
Definition emits (P : Event -> Prop) {A : Type} (c : M A) : Prop :=
  forall s, exists new, events (snd (c s)) = events s ++ new /\ Forall P new.

(** The requests of successive tool rounds: each tool call, then the
    follow-up model call on the conversation paired with it. *)
Definition rounds (calls : list (string * Json))
                  (conversations : list (list MessageParam)) : list Event :=
  flat_map (fun cc => [EvCallTool (fst (fst cc)) (snd (fst cc));
                       EvCreate (followup_request (snd cc))])
           (combine calls conversations).




(** ** The HTTP handlers set up by [main] *)

(** What a handler sends: [res.status(code).json(value)], the status being
    200 when [status] is not called. *)
Record HttpResponse : Type := mkResponse {
  status : Z;
  json : Json
}.

(** Own property [key] of a parsed object.  When a key occurs twice in the
    document, the parsed object holds the value of its last occurrence. *)
Fixpoint get_property (key : string) (members : list (string * Json)) : option Json :=
  match members with
  | [] => None
  | (k, v) :: rest =>
      match get_property key rest with
      | Some v' => Some v'
      | None => if String.eqb k key then Some v else None
      end
  end.

(** JavaScript truthiness of a JSON value: [null], [false], [0] and the
    empty string are falsy. *)
Definition truthy (v : Json) : bool :=
  match v with
  | JNull => false
  | JBool b => b
  | JNumber n => negb (Z.eqb n 0)
  | JString EmptyString => false
  | JString (String _ _) => true
  | JArray _ => true
  | JObject _ => true
  end.

(** Destructuring [undefined] or [null] throws. *)
Definition destructure_error (what : string) : JsError :=
  mkError "TypeError"
    ("Cannot destructure property 'query' of 'req.body' as it is " ++ what ++ ".")%string.

(** [const {query} = req.body], with [req.body] either [undefined] ([None])
    or a JSON value; the result is [None] when [query] is [undefined].
    Strings, numbers, booleans and arrays have no property [query]. *)
Definition destructure_query (body : option Json) : M (option Json) :=
  match body with
  | None => raise (destructure_error "undefined")
  | Some JNull => raise (destructure_error "null")
  | Some (JObject members) => ret (get_property "query" members)
  | Some _ => ret None
  end.

Definition query_required : HttpResponse :=
  {| status := 400; json := JObject [("error"%string, JString "Query is required")] |}.

Definition failed_to_process : HttpResponse :=
  {| status := 500; json := JObject [("error"%string, JString "Failed to process query")] |}.

Section Handlers.

Variable env : Env.

(** [processQuery] on a query of any JSON type: [chatHandler] passes on
    whatever truthy value the request body holds, and [processQuery] uses
    it as the content of the first turn without looking at it. *)
Definition processQuery_value (query : Json) : M string :=
  let l := {| messages := [ {| role := User; content := query |} ];
              finalText := [];
              toolResults := [] |} in
  this <- get_client ;;
  response <- anthropic_messages_create env
                {| p_model := MODEL; p_max_tokens := 1000;
                   p_messages := messages l; p_tools := Some (tools this) |} ;;
  l' <- dispatch env (response_content response) l ;;
  ret (join LF (finalText l')).

(** The handler of [GET /health]. *)
Definition healthCheck : M HttpResponse :=
  this <- get_client ;;
  ret {| status := 200;
         json := JObject [("status"%string, JString "ok");
                          ("tools"%string, JArray (map (fun t => JString (name t)) (tools this)))] |}.

(** The handler of [POST /chat].  [console.error] is recorded as console
    output, like [console.log]. *)
Definition chatHandler (body : option Json) : M HttpResponse :=
  catch
    (query <- destructure_query body ;;
     match query with
     | None => ret query_required
     | Some q =>
         if negb (truthy q) then ret query_required
         else
           response <- processQuery_value q ;;
           ret {| status := 200; json := JObject [("response"%string, JString response)] |}
     end)
    (fun error =>
       console_log "Error processing query:" (LogError error) ;;
       ret failed_to_process).

End Handlers.

(** The state after the requests [bodies] were handled by [chatHandler] one
    after the other. *)
Definition after_chats (env : Env) (bodies : list (option Json)) (s : State) : State :=
  fold_left (fun st body => snd (chatHandler env body st)) bodies s.

(** The transport that [connectToServer] builds for a path it accepts. *)
Definition transport_for (env : Env) (path : string) : StdioClientTransport :=
  {| command := if endsWith path ".py"
                then (if String.eqb (platform env) "win32" then "python" else "python3")
                else execPath env;
     args := [path] |}.

(** A request that [processQuery] may make: a model call with the fixed
    model and token budget, or a tool call. *)
Definition query_request (ev : Event) : Prop :=
  match ev with
  | EvCreate p => p_model p = MODEL /\ p_max_tokens p = 1000%Z
  | EvCallTool _ _ => True
  | _ => False
  end.

(** The strings that the follow-up model calls among the requests [new],
    made after [log], contribute: for each of them that is answered with a
    response that has a first block, the text of that block. *)
Fixpoint replies_of (env : Env) (log new : list Event) : list string :=
  match new with
  | [] => []
  | ev :: rest =>
      match ev with
      | EvCreate p =>
          match p_tools p, messages_create env log p with
          | None, inr resp =>
              match response_content resp with
              | b :: _ => [consumed_text b]
              | [] => []
              end
          | _, _ => []
          end
      | _ => []
      end ++ replies_of env (log ++ [ev]) rest
  end.


(** The query that [chatHandler] passes on to [processQuery], if any: the
    property [query] of an object body, when it is truthy. *)
Definition requested_query (body : option Json) : option Json :=
  match body with
  | Some (JObject members) =>
      match get_property "query" members with
      | Some q => if truthy q then Some q else None
      | None => None
      end
  | _ => None
  end.

(** The body of a successful answer of [chatHandler]. *)
Definition answered (text : string) : HttpResponse :=
  {| status := 200; json := JObject [("response"%string, JString text)] |}.

(** ** The wording of the answer, written out *)

(** The line feed, character 10. *)
Definition newline : string := String "010"%char EmptyString.

(** Strings joined by newline: each but the last is followed by a line
    feed. *)
Fixpoint newline_joined (parts : list string) : string :=
  match parts with
  | [] => EmptyString
  | part :: rest =>
      match rest with
      | [] => part
      | _ :: _ => (part ++ newline ++ newline_joined rest)%string
      end
  end.










(** ** Concrete environments *)

Module Examples.

(** A model that answers the initial request with [initial] and every
    follow-up request with [followup], and a tool host whose every call
    gives [tool]. *)
Definition scripted (initial : list ContentBlock)
                    (followup : JsError + list ContentBlock)
                    (tool : JsError + Json) : Env :=
  {| platform := "linux";
     execPath := "/usr/local/bin/node";
     messages_create := fun _ p =>
       match p_tools p with
       | Some _ => inr {| response_content := initial |}
       | None =>
           match followup with
           | inr blocks => inr {| response_content := blocks |}
           | inl e => inl e
           end
       end;
     listTools := fun _ => inr [];
     callTool := fun _ _ _ =>
       match tool with
       | inr j => inr {| result_content := j |}
       | inl e => inl e
       end;
     close_channel := fun _ => inr tt |}.

Definition fresh : State := new_MCPClient [].

(** "what is 2+2": the model answers with one text block. *)
Definition arithmetic : Env :=
  scripted [TextBlock "4"] (inr []) (inr JNull).

(** "list files": one tool request, one tool result, one comment. *)
Definition list_files : Env :=
  scripted [ToolUseBlock "toolu_1" "list_files" (JObject [])]
           (inr [TextBlock "Found: a.txt, b.txt"])
           (inr (JString "a.txt, b.txt")).

(** Two tool requests between text blocks; each follow-up response asks
    for yet another tool before its text. *)
Definition interleaved : Env :=
  scripted [TextBlock "Looking."; ToolUseBlock "toolu_1" "ls" (JObject [("path", JString "/")]);
            TextBlock "Reading."; ToolUseBlock "toolu_2" "cat" (JObject [("file", JString "a.txt")])]
           (inr [ToolUseBlock "toolu_9" "rm" (JObject []); TextBlock "done"])
           (inr (JString "ok")).

(** A text-only answer in two text blocks around a block of another type. *)
Definition two_lines : Env :=
  scripted [TextBlock "2+2"; OtherBlock "thinking"; TextBlock "is 4"] (inr []) (inr JNull).



Definition host_down : JsError := mkError "McpError" "Connection closed".
Definition overloaded : JsError := mkError "APIError" "529 overloaded".

(** As [interleaved], with a tool host that rejects every call. *)
Definition failing_host : Env :=
  scripted [TextBlock "Looking."; ToolUseBlock "toolu_1" "ls" (JObject []);
            ToolUseBlock "toolu_2" "cat" (JObject [])]
           (inr [TextBlock "done"])
           (inl host_down).

(** A model that rejects the follow-up call. *)
Definition failing_followup : Env :=
  scripted [TextBlock "Looking."; ToolUseBlock "toolu_1" "ls" (JObject [])]
           (inl overloaded)
           (inr (JString "ok")).

(** A model whose follow-up response holds no block at all. *)
Definition silent_followup : Env :=
  scripted [TextBlock "Looking."; ToolUseBlock "toolu_1" "ls" (JObject [])]
           (inr [])
           (inr (JString "ok")).

End Examples.

(** ** Concrete tool hosts *)

Module Hosts.

Definition weather : McpTool :=
  {| mcp_name := "get_forecast";
     mcp_description := Some "Forecast for a place"%string;
     inputSchema := JObject [("type"%string, JString "object")] |}.

Definition alerts : McpTool :=
  {| mcp_name := "get_alerts"; mcp_description := None; inputSchema := JObject [] |}.

(** A tool host that lists two tools, on Windows. *)
Definition two_tools : Env :=
  {| platform := "win32";
     execPath := "C:\node\node.exe";
     messages_create := fun _ _ => inr {| response_content := [TextBlock "Sunny."] |};
     listTools := fun _ => inr [weather; alerts];
     callTool := fun _ _ _ => inr {| result_content := JNull |};
     close_channel := fun _ => inr tt |}.

Definition spawn_failed : JsError := mkError "Error" "spawn python3 ENOENT".

(** A tool host whose listing is rejected. *)
Definition unreachable : Env :=
  {| platform := "linux";
     execPath := "/usr/local/bin/node";
     messages_create := fun _ _ => inr {| response_content := [TextBlock "Sunny."] |};
     listTools := fun _ => inl spawn_failed;
     callTool := fun _ _ _ => inl spawn_failed;
     close_channel := fun _ => inr tt |}.

(** A client that already holds a catalog. *)
Definition connected : State :=
  {| client := {| transport := Some {| command := "python3"; args := ["old.py"%string] |};
                  tools := [to_Tool alerts] |};
     channel := Connected;
     events := [] |}.

End Hosts.

(** ** Facts about the monad and the primitive calls *)

Section Facts.

Variable env : Env.

Lemma bind_run {A B} (c : M A) (k : A -> M B) (s : State) :
  bind c k s = match c s with
               | (Normal a, s') => k a s'
               | (Throw e, s') => (Throw e, s')
               end.
Proof. reflexivity. Qed.

Lemma create_ok s p resp :
  messages_create env (events s) p = inr resp ->
  anthropic_messages_create env p s = (Normal resp, record (EvCreate p) s).
Proof. intros H. unfold anthropic_messages_create. rewrite H. reflexivity. Qed.

Lemma create_fail s p e :
  messages_create env (events s) p = inl e ->
  anthropic_messages_create env p s = (Throw e, record (EvCreate p) s).
Proof. intros H. unfold anthropic_messages_create. rewrite H. reflexivity. Qed.

Lemma callTool_ok s n a r :
  callTool env (events s) n a = inr r ->
  mcp_callTool env n a s = (Normal r, record (EvCallTool n a) s).
Proof. intros H. unfold mcp_callTool. rewrite H. reflexivity. Qed.

Lemma callTool_fail s n a e :
  callTool env (events s) n a = inl e ->
  mcp_callTool env n a s = (Throw e, record (EvCallTool n a) s).
Proof. intros H. unfold mcp_callTool. rewrite H. reflexivity. Qed.


Lemma dispatch_no_tool blocks : forall l s,
  tool_uses blocks = [] ->
  dispatch env blocks l s = (Normal (push_texts (texts blocks) l), s).
Proof.
  induction blocks as [|b blocks IH]; intros l s H.
  - cbn. unfold push_texts. rewrite app_nil_r. destruct l; reflexivity.
  - destruct b as [t| i n a | ty]; cbn in H; try discriminate.
    + cbn [dispatch]. rewrite bind_run. cbn [dispatch_block]. cbn [ret Monad_M].
      rewrite (IH _ _ H). unfold push_texts, push_finalText. cbn.
      rewrite <- app_assoc. reflexivity.
    + cbn [dispatch]. rewrite bind_run. cbn [dispatch_block ret Monad_M].
      rewrite (IH _ _ H). reflexivity.
Qed.

(** [finalText.join] with the separator of [processQuery] puts a line feed
    between neighbours. *)
Lemma join_LF_newline_joined (parts : list string) :
  join LF parts = newline_joined parts.
Proof.
  induction parts as [|part rest IH]; [reflexivity|].
  destruct rest as [|next rest]; [reflexivity|].
  change (join LF (part :: next :: rest))
    with (part ++ LF ++ join LF (next :: rest))%string.
  rewrite IH. reflexivity.
Qed.




End Facts.

(** ** Queries that request no tool *)

(** C1.  When the initial model response holds no [tool_use] block,
    [processQuery] returns the strings of its [text] blocks, in order and
    verbatim, joined by newline: a line feed between neighbours, nothing
    before the first or after the last.  The only request made is the
    initial model call: no [callTool] and no follow-up model call. *)
Theorem processQuery_without_tool_use (env : Env) (query : string) (s : State) (resp : Message) :
  messages_create env (events s) (initial_request query (tools (client s))) = inr resp ->
  tool_uses (response_content resp) = [] ->
  processQuery env query s =
    (Normal (newline_joined (texts (response_content resp))),
     {| client := client s;
        channel := channel s;
        events := events s ++ [EvCreate (initial_request query (tools (client s)))] |}).
Proof.
  intros Hresp Hnone. unfold processQuery.
  rewrite bind_run. cbn [get_client]. rewrite bind_run.
  change (mkParams MODEL 1000 _ (Some (tools (client s))))
    with (initial_request query (tools (client s))).
  rewrite (create_ok env _ _ _ Hresp). rewrite bind_run.
  rewrite (dispatch_no_tool env _ _ _ Hnone).
  cbn [ret Monad_M push_texts finalText app].
  rewrite join_LF_newline_joined. reflexivity.
Qed.

Lemma processQuery_without_tool_use_witness :
  messages_create Examples.two_lines (events Examples.fresh)
    (initial_request "what is 2+2" []) =
    inr {| response_content := [TextBlock "2+2"; OtherBlock "thinking"; TextBlock "is 4"] |} /\
  processQuery Examples.two_lines "what is 2+2" Examples.fresh =
    (Normal ("2+2" ++ String "010"%char "is 4")%string,
     {| client := {| transport := None; tools := [] |};
        channel := NotConnected;
        events := [EvCreate (initial_request "what is 2+2" [])] |}).
Proof.
  split; [reflexivity|].
  exact (processQuery_without_tool_use Examples.two_lines "what is 2+2" Examples.fresh
           {| response_content := [TextBlock "2+2"; OtherBlock "thinking"; TextBlock "is 4"] |}
           eq_refl eq_refl).
Defined.

(** The scenario of the spec: one text block, returned as it is. *)
Example scenario_what_is_2_plus_2 :
  fst (processQuery Examples.arithmetic "what is 2+2" Examples.fresh) = Normal "4"%string.
Proof. reflexivity. Qed.

(** ** Connecting with an unsupported entry point *)

(** C6.  When the path ends in neither [".js"] nor [".py"],
    [connectToServer] throws the invalid-script error and connects nothing:
    the fields [transport] and [tools] and the channel are as before, and the
    only trace left is the line written to the console, so no transport was
    built and no listing was requested.  On a fresh client, therefore, the
    transport is still [null] and the catalog still empty. *)
Theorem connectToServer_invalid_script (env : Env) (path : string) (s : State) :
  endsWith path ".js" = false ->
  endsWith path ".py" = false ->
  connectToServer env path s =
    (Throw InvalidScriptType,
     {| client := client s;
        channel := channel s;
        events := events s ++
                  [EvLog "Failed to connect to MCP server: " (LogError InvalidScriptType)] |})
  /\ (forall log, s = new_MCPClient log ->
        snd (connectToServer env path s) =
          {| client := {| transport := None; tools := [] |};
             channel := NotConnected;
             events := log ++
                       [EvLog "Failed to connect to MCP server: "
                              (LogError InvalidScriptType)] |}).
Proof.
  intros Hjs Hpy.
  assert (E : connectToServer env path s =
    (Throw InvalidScriptType,
     {| client := client s; channel := channel s;
        events := events s ++
          [EvLog "Failed to connect to MCP server: " (LogError InvalidScriptType)] |})).
  { unfold connectToServer. cbn [catch MonadExc_M]. rewrite Hjs, Hpy. reflexivity. }
  split; [exact E|].
  intros log ->. rewrite E. reflexivity.
Qed.

Lemma connectToServer_invalid_script_witness :
  endsWith "server.rb" ".js" = false /\
  snd (connectToServer Examples.arithmetic "server.rb" Examples.fresh) =
    {| client := {| transport := None; tools := [] |};
       channel := NotConnected;
       events := [EvLog "Failed to connect to MCP server: " (LogError InvalidScriptType)] |}.
Proof.
  split; [reflexivity|].
  rewrite (proj1 (connectToServer_invalid_script Examples.arithmetic "server.rb"
                    Examples.fresh eq_refl eq_refl)).
  reflexivity.
Defined.

(** ** Shutting down twice *)

(** C8.  After a [cleanup()] that returned normally, a second [cleanup()]
    returns normally as well and changes nothing: the channel stays closed
    and no further request is made. *)
Theorem cleanup_idempotent (env : Env) (s s1 : State) :
  cleanup env s = (Normal tt, s1) ->
  cleanup env s1 = (Normal tt, s1) /\ channel s1 = Closed.
Proof.
  unfold cleanup, mcp_close. intros H.
  assert (Hc : channel s1 = Closed).
  { destruct (channel s) eqn:Ech;
      try (destruct (close_channel env (events s)); inversion H; subst; reflexivity).
    inversion H; subst. exact Ech. }
  rewrite Hc. split; reflexivity.
Qed.

Lemma cleanup_idempotent_witness :
  let s1 := snd (cleanup Examples.list_files
                   (snd (connectToServer Examples.list_files "server.py" Examples.fresh))) in
  cleanup Examples.list_files s1 = (Normal tt, s1) /\ channel s1 = Closed.
Proof.
  exact (cleanup_idempotent Examples.list_files
           (snd (connectToServer Examples.list_files "server.py" Examples.fresh)) _ eq_refl).
Defined.

(** ** Frame: what a query leaves alone *)

Section Frame.

Variable env : Env.

Lemma only_logs_bind {A B} (c : M A) (k : A -> M B) :
  only_logs c -> (forall a, only_logs (k a)) -> only_logs (bind c k).
Proof.
  intros Hc Hk s. rewrite bind_run. specialize (Hc s).
  destruct (c s) as [[a|e] s1]; cbn in Hc.
  - destruct (Hk a s1) as [H1 H2]. destruct Hc as [H3 H4]. split; congruence.
  - exact Hc.
Qed.

Lemma only_logs_ret {A} (a : A) : only_logs (ret a).
Proof. intros s. split; reflexivity. Qed.

Lemma only_logs_raise {A} (e : JsError) : only_logs (raise e : M A).
Proof. intros s. split; reflexivity. Qed.

Lemma only_logs_create p : only_logs (anthropic_messages_create env p).
Proof.
  intros s. unfold anthropic_messages_create, of_answer.
  destruct (messages_create env (events s) p); split; reflexivity.
Qed.

Lemma only_logs_callTool n a : only_logs (mcp_callTool env n a).
Proof.
  intros s. unfold mcp_callTool, of_answer.
  destruct (callTool env (events s) n a); split; reflexivity.
Qed.

Lemma only_logs_first_text blocks : only_logs (first_text blocks).
Proof.
  destruct blocks as [|[t|i n a|ty] rest]; cbn [first_text];
    auto using only_logs_ret, only_logs_raise.
Qed.

Lemma only_logs_dispatch_block b l : only_logs (dispatch_block env b l).
Proof.
  destruct b as [t|i n a|ty]; cbn [dispatch_block]; try apply only_logs_ret.
  apply only_logs_bind; [apply only_logs_callTool | intros r].
  apply only_logs_bind; [apply only_logs_create | intros resp].
  apply only_logs_bind; [apply only_logs_first_text | intros t].
  apply only_logs_ret.
Qed.

Lemma only_logs_dispatch blocks : forall l, only_logs (dispatch env blocks l).
Proof.
  induction blocks as [|b blocks IH]; intros l; cbn [dispatch].
  - apply only_logs_ret.
  - apply only_logs_bind; [apply only_logs_dispatch_block | exact IH].
Qed.

Lemma only_logs_processQuery q : only_logs (processQuery env q).
Proof.
  unfold processQuery.
  apply only_logs_bind; [intros s; split; reflexivity | intros this].
  apply only_logs_bind; [apply only_logs_create | intros resp].
  apply only_logs_bind; [apply only_logs_dispatch | intros l'].
  apply only_logs_ret.
Qed.

Lemma after_queries_client qs : forall s,
  client (after_queries env qs s) = client s.
Proof.
  induction qs as [|q qs IH]; intros s; [reflexivity|].
  unfold after_queries in *. cbn [fold_left].
  rewrite IH. apply only_logs_processQuery.
Qed.

End Frame.

(** ** Requests that abort the query *)

Section Abort.

Variable env : Env.
Variable fatal : list Event -> Event -> JsError -> Prop.

Lemma aborts_bind {A B} (c : M A) (k : A -> M B) :
  aborts_on fatal c -> (forall a, aborts_on fatal (k a)) ->
  aborts_on fatal (bind c k).
Proof.
  intros Hc Hk s. rewrite bind_run.
  destruct (Hc s) as (new1 & E1 & F1).
  destruct (c s) as [[a|e0] s1]; cbn [fst snd] in *.
  - destruct (Hk a s1) as (new2 & E2 & F2).
    exists (new1 ++ new2). split.
    + rewrite E2, E1, app_assoc. reflexivity.
    + intros h ev t e Hsplit Hfatal.
      assert (Hcut : new1 ++ new2 = h ++ [ev] ++ t) by exact Hsplit.
      apply app_eq_app in Hcut.
      destruct Hcut as [m [[Hh Ht] | [Hh Ht]]].
      * (* the cut falls among the requests of [c], or right after them *)
        destruct m as [|x m].
        -- cbn in Ht. rewrite app_nil_r in Hh. subst new1.
           apply (F2 [] ev t e).
           ++ cbn. symmetry. exact Ht.
           ++ rewrite app_nil_r, E1. exact Hfatal.
        -- cbn in Ht. injection Ht as Hx Ht. subst x.
           destruct (F1 h ev m e Hh Hfatal) as [Habs _]. discriminate.
      * (* the cut falls among the requests of [k a] *)
        subst h. apply (F2 m ev t e); [exact Ht|].
        rewrite E1, <- app_assoc. exact Hfatal.
  - exists new1. split; [exact E1|].
    intros h ev t e Hsplit Hfatal.
    destruct (F1 h ev t e Hsplit Hfatal) as [Hthrow Ht].
    injection Hthrow as <-. split; [reflexivity | exact Ht].
Qed.

Lemma aborts_silent {A} (c : M A) :
  (forall s, events (snd (c s)) = events s) -> aborts_on fatal c.
Proof.
  intros H s. exists []. split; [rewrite H, app_nil_r; reflexivity|].
  intros [|x h] ev t e Hsplit; discriminate.
Qed.

Lemma aborts_single {A} (c : M A) (ev : Event) :
  (forall s, events (snd (c s)) = events s ++ [ev]) ->
  (forall s e, fatal (events s) ev e -> fst (c s) = Throw e) ->
  aborts_on fatal c.
Proof.
  intros Hlog Hfatal s. exists [ev]. split; [apply Hlog|].
  intros [|x h] ev' t e Hsplit Hf.
  - cbn in Hsplit. injection Hsplit as <- <-.
    rewrite app_nil_r in Hf. auto.
  - cbn in Hsplit. injection Hsplit as _ Hsplit. destruct h; discriminate.
Qed.

Lemma aborts_dispatch_of_block :
  (forall b l, aborts_on fatal (dispatch_block env b l)) ->
  forall blocks l, aborts_on fatal (dispatch env blocks l).
Proof.
  intros Hblock. induction blocks as [|b blocks IH]; intros l; cbn [dispatch].
  - apply aborts_silent. reflexivity.
  - apply aborts_bind; [apply Hblock | exact IH].
Qed.

End Abort.

(** ** What [processQuery] requests *)

Section Requests.

Variable env : Env.

Lemma emits_bind P {A B} (c : M A) (k : A -> M B) :
  emits P c -> (forall a, emits P (k a)) -> emits P (bind c k).
Proof.
  intros Hc Hk s. rewrite bind_run.
  destruct (Hc s) as (new1 & E1 & F1).
  destruct (c s) as [[a|e0] s1]; cbn [fst snd] in *.
  - destruct (Hk a s1) as (new2 & E2 & F2).
    exists (new1 ++ new2). split.
    + rewrite E2, E1, app_assoc. reflexivity.
    + apply Forall_app. split; assumption.
  - exists new1. split; assumption.
Qed.

Lemma emits_silent P {A} (c : M A) :
  (forall s, events (snd (c s)) = events s) -> emits P c.
Proof.
  intros H s. exists []. rewrite H, app_nil_r. split; [reflexivity | constructor].
Qed.

Lemma create_log p s :
  events (snd (anthropic_messages_create env p s)) = events s ++ [EvCreate p].
Proof.
  unfold anthropic_messages_create, of_answer.
  destruct (messages_create env (events s) p); reflexivity.
Qed.

Lemma callTool_log n a s :
  events (snd (mcp_callTool env n a s)) = events s ++ [EvCallTool n a].
Proof.
  unfold mcp_callTool, of_answer.
  destruct (callTool env (events s) n a); reflexivity.
Qed.

Lemma first_text_log blocks s : events (snd (first_text blocks s)) = events s.
Proof. destruct blocks as [|[t|i n a|ty] rest]; reflexivity. Qed.

Lemma first_text_cons b rest s :
  first_text (b :: rest) s = (Normal (consumed_text b), s).
Proof. destruct b; reflexivity. Qed.

Lemma emits_dispatch blocks : forall l, emits not_initial (dispatch env blocks l).
Proof.
  induction blocks as [|b blocks IH]; intros l; cbn [dispatch].
  - apply emits_silent. reflexivity.
  - apply emits_bind; [|exact IH].
    destruct b as [t|i n a|ty]; cbn [dispatch_block];
      try (apply emits_silent; reflexivity).
    apply emits_bind.
    { intros s. exists [EvCallTool n a]. split; [apply callTool_log|].
      repeat constructor. }
    intros r. apply emits_bind.
    { intros s. eexists. split; [apply create_log|]. repeat constructor. }
    intros resp. apply emits_bind.
    { apply emits_silent. apply first_text_log. }
    intros t. apply emits_silent. reflexivity.
Qed.

(** A query starts with the initial model call, catalog attached; no
    later request of the query carries a catalog. *)
Lemma processQuery_log q s :
  exists rest,
    events (snd (processQuery env q s)) =
      events s ++ EvCreate (initial_request q (tools (client s))) :: rest /\
    Forall not_initial rest.
Proof.
  unfold processQuery. rewrite bind_run. cbn [get_client]. rewrite bind_run.
  change (mkParams MODEL 1000 _ (Some (tools (client s))))
    with (initial_request q (tools (client s))).
  pose proof (create_log (initial_request q (tools (client s))) s) as Hlog.
  destruct (anthropic_messages_create env _ s) as [[resp|e] s1]; cbn [snd] in *.
  - rewrite bind_run.
    destruct (emits_dispatch (response_content resp)
                {| messages := [ {| role := User; content := JString q |} ];
                   finalText := []; toolResults := [] |} s1) as (new & E & F).
    exists new. split; [|exact F].
    destruct (dispatch env _ _ s1) as [[l'|e] s2]; cbn [snd] in E;
      cbn [ret Monad_M snd]; rewrite E, Hlog, <- app_assoc; reflexivity.
  - exists []. split; [exact Hlog | constructor].
Qed.

End Requests.

(** C10.  [processQuery] leaves the fields of the client alone, the cached
    catalog among them, whether it returns or throws; so after any sequence
    [qs] of earlier queries, the initial model call of a query still
    carries the catalog the client had at the start. *)
Theorem processQuery_keeps_catalog (env : Env) (qs : list string) (q : string) (s : State) :
  client (snd (processQuery env q s)) = client s /\
  tools (client (after_queries env qs s)) = tools (client s) /\
  exists rest,
    events (snd (processQuery env q (after_queries env qs s))) =
      events (after_queries env qs s) ++
      EvCreate (initial_request q (tools (client s))) :: rest.
Proof.
  split; [apply only_logs_processQuery|].
  split; [rewrite after_queries_client; reflexivity|].
  destruct (processQuery_log env q (after_queries env qs s)) as (rest & E & _).
  exists rest. rewrite E, after_queries_client. reflexivity.
Qed.

(** ** Failures of the remote services *)

Section Rejections.

Variable env : Env.

Lemma rejected_create p : aborts_on (rejected env) (anthropic_messages_create env p).
Proof.
  apply aborts_single with (ev := EvCreate p).
  - apply create_log.
  - intros s e H. cbn in H. rewrite (create_fail env _ _ _ H). reflexivity.
Qed.

Lemma rejected_callTool n a : aborts_on (rejected env) (mcp_callTool env n a).
Proof.
  apply aborts_single with (ev := EvCallTool n a).
  - apply callTool_log.
  - intros s e H. cbn in H. rewrite (callTool_fail env _ _ _ _ H). reflexivity.
Qed.

Lemma rejected_dispatch_block b l : aborts_on (rejected env) (dispatch_block env b l).
Proof.
  destruct b as [t|i n a|ty]; cbn [dispatch_block];
    try (apply aborts_silent; reflexivity).
  apply aborts_bind; [apply rejected_callTool | intros r].
  apply aborts_bind; [apply rejected_create | intros resp].
  apply aborts_bind; [apply aborts_silent, first_text_log | intros t].
  apply aborts_silent. reflexivity.
Qed.

Lemma rejected_processQuery q : aborts_on (rejected env) (processQuery env q).
Proof.
  unfold processQuery.
  apply aborts_bind; [apply aborts_silent; reflexivity | intros this].
  apply aborts_bind; [apply rejected_create | intros resp].
  apply aborts_bind;
    [apply aborts_dispatch_of_block, rejected_dispatch_block | intros l'].
  apply aborts_silent. reflexivity.
Qed.

End Rejections.

(** C5.  If, in the course of [processQuery], a model call or a [callTool]
    request is answered with an error [e], then that request is the last
    one of the query and [processQuery] throws [e]: the caller gets the
    error and no text, whatever had been pushed onto [finalText] before. *)
Theorem processQuery_rejects (env : Env) (query : string) (s : State)
        (h : list Event) (ev : Event) (t : list Event) (e : JsError) :
  events (snd (processQuery env query s)) = events s ++ h ++ ev :: t ->
  rejected env (events s ++ h) ev e ->
  fst (processQuery env query s) = Throw e /\
  t = [] /\
  forall text, fst (processQuery env query s) <> Normal text.
Proof.
  intros Hlog Hrej.
  destruct (rejected_processQuery env query s) as (new & E & F).
  rewrite E in Hlog. apply app_inv_head in Hlog.
  destruct (F h ev t e Hlog Hrej) as [Hthrow Ht].
  repeat split; try assumption.
  intros text Htext. rewrite Hthrow in Htext. discriminate.
Qed.

Lemma processQuery_rejects_witness :
  let run := processQuery Examples.failing_host "list and read" Examples.fresh in
  let asked := [EvCreate (initial_request "list and read" [])] in
  events (snd run) = asked ++ [EvCallTool "ls" (JObject [])] /\
  rejected Examples.failing_host asked (EvCallTool "ls" (JObject [])) Examples.host_down /\
  fst run = Throw Examples.host_down.
Proof.
  split; [reflexivity|]. split; [reflexivity|].
  refine (proj1 (processQuery_rejects Examples.failing_host "list and read" Examples.fresh
                   [EvCreate (initial_request "list and read" [])]
                   (EvCallTool "ls" (JObject [])) [] Examples.host_down _ _));
    reflexivity.
Defined.

(** The same when it is the follow-up model call that is rejected, after a
    text block and a trace line were pushed. *)
Example followup_rejected :
  processQuery Examples.failing_followup "list" Examples.fresh =
    (Throw Examples.overloaded,
     {| client := client Examples.fresh;
        channel := channel Examples.fresh;
        events := [EvCreate (initial_request "list" []);
                   EvCallTool "ls" (JObject []);
                   EvCreate (followup_request [user_turn (JString "list");
                                               user_turn (JString "ok")])] |}).
Proof. reflexivity. Qed.

(** ** A follow-up response without any block *)

Section EmptyFollowup.

Variable env : Env.

Lemma empty_followup_callTool n a :
  aborts_on (empty_followup env) (mcp_callTool env n a).
Proof.
  apply aborts_single with (ev := EvCallTool n a).
  - apply callTool_log.
  - intros s e [].
Qed.

Lemma empty_followup_initial p :
  p_tools p <> None ->
  aborts_on (empty_followup env) (anthropic_messages_create env p).
Proof.
  intros Hp. apply aborts_single with (ev := EvCreate p).
  - apply create_log.
  - intros s e (Hnone & _). contradiction.
Qed.

(** The model call and the read of [response.content[0]] that follows
    it, taken together. *)
Lemma empty_followup_read {B} p (k : string -> M B) :
  (forall text, aborts_on (empty_followup env) (k text)) ->
  aborts_on (empty_followup env)
    (bind (anthropic_messages_create env p)
          (fun response => bind (first_text (response_content response)) k)).
Proof.
  intros Hk s. rewrite bind_run.
  destruct (messages_create env (events s) p) as [e1|[blocks]] eqn:Eanswer.
  - (* the model call is rejected *)
    rewrite (create_fail env _ _ _ Eanswer).
    exists [EvCreate p]. split; [reflexivity|].
    intros [|x h] ev t e Hsplit Hf; cbn in Hsplit.
    + injection Hsplit as <- <-. rewrite app_nil_r in Hf.
      destruct Hf as (_ & Hf & _). rewrite Eanswer in Hf. discriminate.
    + injection Hsplit as _ Hsplit. destruct h; discriminate.
  - rewrite (create_ok env _ _ _ Eanswer), bind_run.
    destruct blocks as [|b rest]; cbn [response_content].
    + (* no block to read *)
      exists [EvCreate p]. split; [reflexivity|].
      intros [|x h] ev t e Hsplit Hf; cbn in Hsplit.
      * injection Hsplit as <- <-. destruct Hf as (_ & _ & ->).
        split; reflexivity.
      * injection Hsplit as _ Hsplit. destruct h; discriminate.
    + rewrite first_text_cons.
      destruct (Hk (consumed_text b) (record (EvCreate p) s)) as (new & E & F).
      exists (EvCreate p :: new). split.
      * rewrite E. cbn [record events]. rewrite <- app_assoc. reflexivity.
      * intros [|x h] ev t e Hsplit Hf; cbn in Hsplit.
        -- injection Hsplit as <- <-. rewrite app_nil_r in Hf.
           destruct Hf as (_ & Hf & _). rewrite Eanswer in Hf. discriminate.
        -- injection Hsplit as <- Hsplit. apply (F h ev t e Hsplit).
           cbn [record events]. rewrite <- app_assoc. exact Hf.
Qed.

Lemma empty_followup_dispatch_block b l :
  aborts_on (empty_followup env) (dispatch_block env b l).
Proof.
  destruct b as [t|i n a|ty]; cbn [dispatch_block];
    try (apply aborts_silent; reflexivity).
  apply aborts_bind; [apply empty_followup_callTool | intros r].
  apply empty_followup_read. intros text.
  apply aborts_silent. reflexivity.
Qed.

Lemma empty_followup_processQuery q :
  aborts_on (empty_followup env) (processQuery env q).
Proof.
  unfold processQuery.
  apply aborts_bind; [apply aborts_silent; reflexivity | intros this].
  apply aborts_bind; [apply empty_followup_initial; discriminate | intros resp].
  apply aborts_bind;
    [apply aborts_dispatch_of_block, empty_followup_dispatch_block | intros l'].
  apply aborts_silent. reflexivity.
Qed.

End EmptyFollowup.

(** C9.  If, in the course of [processQuery], the model call [p] that
    follows a [callTool] request is answered with a response whose content
    is empty, then [processQuery] throws the [TypeError] of reading a
    property of [undefined], and nothing is requested after that call: the
    query does not complete with an empty string in place of the missing
    text.  (That the model call follows the [callTool] request in the log
    already says that the tool call succeeded.) *)
Theorem processQuery_empty_followup_throws (env : Env) (query : string) (s : State)
        (h : list Event) (n : string) (a : Json) (p : MessageCreateParams)
        (t : list Event) :
  events (snd (processQuery env query s)) =
    events s ++ h ++ EvCallTool n a :: EvCreate p :: t ->
  messages_create env (events s ++ h ++ [EvCallTool n a]) p =
    inr {| response_content := [] |} ->
  fst (processQuery env query s) = Throw undefined_type_error /\ t = [].
Proof.
  intros Hlog Hempty.
  assert (Hp : p_tools p = None).
  { destruct (processQuery_log env query s) as (rest & E & F).
    rewrite E in Hlog. apply app_inv_head in Hlog.
    destruct h as [|x h]; cbn in Hlog; [discriminate|].
    injection Hlog as _ Hrest. subst rest.
    apply Forall_app in F. destruct F as [_ F].
    inversion F as [|? ? _ F']; subst. inversion F' as [|? ? Hp _]; subst.
    exact Hp. }
  destruct (empty_followup_processQuery env query s) as (new & E & F).
  rewrite E in Hlog. apply app_inv_head in Hlog.
  apply (F (h ++ [EvCallTool n a]) (EvCreate p) t undefined_type_error).
  - rewrite Hlog, <- app_assoc. reflexivity.
  - cbn. auto.
Qed.

Lemma processQuery_empty_followup_throws_witness :
  let run := processQuery Examples.silent_followup "list" Examples.fresh in
  events (snd run) =
    [EvCreate (initial_request "list" [])] ++
    [EvCallTool "ls" (JObject []);
     EvCreate (followup_request [user_turn (JString "list"); user_turn (JString "ok")])] /\
  fst run = Throw undefined_type_error.
Proof.
  split; [reflexivity|].
  refine (proj1 (processQuery_empty_followup_throws
                   Examples.silent_followup "list" Examples.fresh
                   [EvCreate (initial_request "list" [])] "ls" (JObject [])
                   (followup_request [user_turn (JString "list"); user_turn (JString "ok")])
                   [] _ _));
    reflexivity.
Defined.

(** ** One tool call, start to end *)

Section ToolCall.

Variable env : Env.




(** The loop body on a [tool_use] block whose tool call succeeds, up to
    the answer of the follow-up model call. *)
Lemma dispatch_block_called i n a l s r :
  callTool env (events s) n a = inr r ->
  dispatch_block env (ToolUseBlock i n a) l s =
  match messages_create env (events s ++ [EvCallTool n a])
          (followup_request (messages l ++ [user_turn (result_content r)])) with
  | inl e =>
      (Throw e,
       record (EvCreate (followup_request (messages l ++ [user_turn (result_content r)])))
              (record (EvCallTool n a) s))
  | inr resp =>
      match response_content resp with
      | [] =>
          (Throw undefined_type_error,
           record (EvCreate (followup_request (messages l ++ [user_turn (result_content r)])))
                  (record (EvCallTool n a) s))
      | b :: _ =>
          (Normal {| messages := messages l ++ [user_turn (result_content r)];
                     finalText := finalText l ++ [calling_line n a; consumed_text b];
                     toolResults := toolResults l ++ [r] |},
           record (EvCreate (followup_request (messages l ++ [user_turn (result_content r)])))
                  (record (EvCallTool n a) s))
      end
  end.
Proof.
  intros Hcall. cbn [dispatch_block]. rewrite bind_run, (callTool_ok env _ _ _ _ Hcall).
  rewrite bind_run. unfold anthropic_messages_create, of_answer.
  cbn [record events push_message push_finalText push_toolResult messages].
  change (mkParams MODEL 1000 ?m None) with (followup_request m).
  destruct (messages_create env _ _) as [e|[blocks]]; [reflexivity|].
  rewrite bind_run. destruct blocks as [|b rest]; cbn [response_content]; [reflexivity|].
  rewrite first_text_cons. unfold push_finalText, push_message, push_toolResult.
  cbn [ret Monad_M finalText messages toolResults].
  rewrite <- app_assoc. reflexivity.
Qed.

End ToolCall.



(** C4, where the code departs from it.  The tool call succeeds and the
    follow-up model call is answered with a response that holds no block:
    the loop body reads [type] of the missing first block and throws,
    where the claim has the empty string pushed; [processQuery] throws
    with it. *)
Lemma tool_call_followup_empty_response :
  let l := {| messages := [user_turn (JString "list")];
              finalText := ["Looking."%string]; toolResults := [] |} in
  let s := record (EvCreate (initial_request "list" [])) Examples.fresh in
  let p := followup_request [user_turn (JString "list"); user_turn (JString "ok")] in
  callTool Examples.silent_followup (events s) "ls" (JObject [])
    = inr {| result_content := JString "ok" |} /\
  messages_create Examples.silent_followup (events s ++ [EvCallTool "ls" (JObject [])]) p
    = inr {| response_content := [] |} /\
  dispatch_block Examples.silent_followup (ToolUseBlock "toolu_1" "ls" (JObject [])) l s =
    (Throw (mkError "TypeError" "Cannot read properties of undefined (reading 'type')"),
     {| client := client s; channel := channel s;
        events := events s ++ [EvCallTool "ls" (JObject []); EvCreate p] |}) /\
  fst (processQuery Examples.silent_followup "list" Examples.fresh) =
    Throw (mkError "TypeError" "Cannot read properties of undefined (reading 'type')").
Proof. repeat split. Qed.




(** The scenario of the spec: one tool request with empty arguments. *)
Example scenario_list_files :
  fst (processQuery Examples.list_files "list files" Examples.fresh) =
    Normal ("[Calling tool list_files with args {}]"
              ++ String "010"%char "Found: a.txt, b.txt")%string.
Proof. reflexivity. Qed.

(** ** Tool calls of a query, in order *)

Section Rounds.

Variable env : Env.

Lemma calls_of_rounds calls : forall conversations,
  length conversations = length calls ->
  calls_of (rounds calls conversations) = calls.
Proof.
  induction calls as [|[n a] calls IH]; intros [|c conversations] Hlen;
    try discriminate; [reflexivity|].
  cbn in Hlen. injection Hlen as Hlen.
  change (rounds ((n, a) :: calls) (c :: conversations))
    with (EvCallTool n a :: EvCreate (followup_request c) :: rounds calls conversations).
  cbn [calls_of flat_map app]. fold (calls_of (rounds calls conversations)).
  rewrite (IH _ Hlen). reflexivity.
Qed.

(** A loop that runs to its end has made one round per [tool_use] block. *)
Lemma dispatch_rounds blocks : forall l s l' s',
  dispatch env blocks l s = (Normal l', s') ->
  exists conversations,
    length conversations = length (tool_uses blocks) /\
    events s' = events s ++ rounds (tool_uses blocks) conversations.
Proof.
  induction blocks as [|b blocks IH]; intros l s l' s' Hrun.
  - injection Hrun as _ <-. exists []. rewrite app_nil_r. split; reflexivity.
  - cbn [dispatch] in Hrun. rewrite bind_run in Hrun.
    destruct b as [t|i n a|ty].
    + apply IH in Hrun. exact Hrun.
    + destruct (callTool env (events s) n a) as [e|r] eqn:Hcall.
      { cbn [dispatch_block] in Hrun.
        rewrite bind_run, (callTool_fail env _ _ _ _ Hcall) in Hrun. discriminate. }
      rewrite (dispatch_block_called env i n a l s r Hcall) in Hrun.
      destruct (messages_create env _ _) as [e|[[|b0 rest]]];
        cbn [response_content] in Hrun; try discriminate.
      apply IH in Hrun. destruct Hrun as (conversations & Hlen & Hlog).
      exists ((messages l ++ [user_turn (result_content r)]) :: conversations).
      split; [cbn; rewrite Hlen; reflexivity|].
      rewrite Hlog. cbn [record events]. rewrite <- !app_assoc. reflexivity.
    + apply IH in Hrun. exact Hrun.
Qed.

End Rounds.

(** C2, as amended.  When [processQuery] returns normally and its initial
    response holds N [tool_use] blocks, the requests of the query are the
    initial model call followed by N rounds, one per block and in the order
    of the blocks: the [callTool] request of the block, then a follow-up
    model call without catalog.  So exactly N tool calls are made, each one
    is followed by its own model call before the next one, and nothing that
    a follow-up response holds adds a tool call. *)
Theorem processQuery_tool_rounds (env : Env) (query : string) (s s' : State)
        (resp : Message) (text : string) :
  messages_create env (events s) (initial_request query (tools (client s))) = inr resp ->
  processQuery env query s = (Normal text, s') ->
  exists conversations,
    length conversations = length (tool_uses (response_content resp)) /\
    events s' = events s ++
                EvCreate (initial_request query (tools (client s))) ::
                rounds (tool_uses (response_content resp)) conversations /\
    calls_of (EvCreate (initial_request query (tools (client s))) ::
              rounds (tool_uses (response_content resp)) conversations)
      = tool_uses (response_content resp).
Proof.
  intros Hresp Hrun. unfold processQuery in Hrun.
  rewrite bind_run in Hrun. cbn [get_client] in Hrun. rewrite bind_run in Hrun.
  change (mkParams MODEL 1000 _ (Some (tools (client s))))
    with (initial_request query (tools (client s))) in Hrun.
  rewrite (create_ok env _ _ _ Hresp), bind_run in Hrun.
  destruct (dispatch env _ _ _) as [[l'|e] s1] eqn:Hloop; [|discriminate].
  injection Hrun as _ <-.
  apply dispatch_rounds in Hloop. destruct Hloop as (conversations & Hlen & Hlog).
  exists conversations. split; [exact Hlen|]. split.
  - rewrite Hlog. cbn [record events]. rewrite <- app_assoc. reflexivity.
  - cbn [calls_of flat_map app]. apply calls_of_rounds. exact Hlen.
Qed.

Lemma processQuery_tool_rounds_witness :
  let run := processQuery Examples.interleaved "list and read" Examples.fresh in
  fst run = Normal (join LF ["Looking.";
                             calling_line "ls" (JObject [("path", JString "/")]);
                             EmptyString;
                             "Reading.";
                             calling_line "cat" (JObject [("file", JString "a.txt")]);
                             EmptyString]%string) /\
  calls_of (events (snd run)) =
    [("ls", JObject [("path", JString "/")]);
     ("cat", JObject [("file", JString "a.txt")])]%string.
Proof.
  split; [reflexivity|].
  destruct (processQuery_tool_rounds Examples.interleaved "list and read" Examples.fresh
              (snd (processQuery Examples.interleaved "list and read" Examples.fresh))
              {| response_content :=
                   [TextBlock "Looking.";
                    ToolUseBlock "toolu_1" "ls" (JObject [("path", JString "/")]);
                    TextBlock "Reading.";
                    ToolUseBlock "toolu_2" "cat" (JObject [("file", JString "a.txt")])]%string |}
              _ eq_refl eq_refl) as (conversations & _ & Hlog & Hcalls).
  rewrite Hlog. exact Hcalls.
Defined.

(** C2, as stated, fails when a call is rejected: here the initial
    response holds two [tool_use] blocks, the tool host rejects the first
    call, and the query ends after that single [callTool] request, without
    any follow-up model call. *)
Lemma processQuery_tool_rounds_counterexample :
  let run := processQuery Examples.failing_host "list and read" Examples.fresh in
  exists resp,
    messages_create Examples.failing_host (events Examples.fresh)
      (initial_request "list and read" (tools (client Examples.fresh))) = inr resp /\
    length (tool_uses (response_content resp)) = 2 /\
    events (snd run) =
      events Examples.fresh ++
      [EvCreate (initial_request "list and read" []); EvCallTool "ls" (JObject [])] /\
    length (calls_of (events (snd run))) <> length (tool_uses (response_content resp)).
Proof.
  eexists. split; [reflexivity|]. split; [reflexivity|]. split; [reflexivity|].
  cbn. discriminate.
Qed.

(** ** The conversation sent to the model *)

Section Conversation.

Variable env : Env.




Variable query : string.
Variable log0 : list Event.



End Conversation.

Section Sent.

Variable env : Env.



End Sent.

Section Matching.

Variable env : Env.



End Matching.



(** ** Connecting: which paths are accepted, and what is built for them *)

Section Suffix.

Lemma string_length_app (a b : string) :
  String.length (a ++ b)%string = String.length a + String.length b.
Proof. induction a as [|c a IH]; cbn; [reflexivity | rewrite IH; reflexivity]. Qed.

Lemma substring_whole (s : string) : substring 0 (String.length s) s = s.
Proof. induction s as [|c s IH]; cbn; [reflexivity | rewrite IH; reflexivity]. Qed.

Lemma substring_after (a b : string) :
  substring (String.length a) (String.length b) (a ++ b)%string = b.
Proof. induction a as [|c a IH]; cbn; [apply substring_whole | exact IH]. Qed.

(** A string is its first [i] characters followed by the rest. *)
Lemma substring_cut (s : string) : forall i,
  i <= String.length s ->
  s = (substring 0 i s ++ substring i (String.length s - i) s)%string.
Proof.
  induction s as [|c s IH]; intros [|i] Hi; cbn in *; try lia.
  - reflexivity.
  - rewrite substring_whole. reflexivity.
  - rewrite <- (IH i) by lia. reflexivity.
Qed.

(** [endsWith] is the suffix relation of strings. *)
Lemma endsWith_iff (s suffix : string) :
  endsWith s suffix = true <-> exists stem, s = (stem ++ suffix)%string.
Proof.
  unfold endsWith. split.
  - destruct (Nat.leb_spec (String.length suffix) (String.length s)) as [Hle|]; [|discriminate].
    intros Heq. apply String.eqb_eq in Heq.
    exists (substring 0 (String.length s - String.length suffix) s).
    etransitivity;
      [apply (substring_cut s (String.length s - String.length suffix)); lia|].
    f_equal. rewrite <- Heq at 3. f_equal. lia.
  - intros (stem & ->). rewrite string_length_app.
    destruct (Nat.leb_spec (String.length suffix) (String.length stem + String.length suffix));
      [|lia].
    replace (String.length stem + String.length suffix - String.length suffix)
      with (String.length stem) by lia.
    rewrite substring_after. apply String.eqb_refl.
Qed.

Lemma js_is_not_py (a b : string) : (a ++ ".js")%string <> (b ++ ".py")%string.
Proof.
  revert b. induction a as [|c a IH]; intros b H.
  - destruct b as [|c1 [|c2 [|c3 [|c4 b]]]]; cbn in H; discriminate.
  - destruct b as [|c' b]; cbn in H.
    + injection H as _ H.
      destruct a as [|c1 [|c2 [|c3 a]]]; cbn in H; discriminate.
    + injection H as _ H. exact (IH b H).
Qed.

Lemma endsWith_js_not_py (stem : string) : endsWith (stem ++ ".js") ".py" = false.
Proof.
  destruct (endsWith (stem ++ ".js") ".py") eqn:E; [|reflexivity].
  apply endsWith_iff in E. destruct E as (b & E). destruct (js_is_not_py _ _ E).
Qed.

Lemma endsWith_py_not_js (stem : string) : endsWith (stem ++ ".py") ".js" = false.
Proof.
  destruct (endsWith (stem ++ ".py") ".js") eqn:E; [|reflexivity].
  apply endsWith_iff in E. destruct E as (b & E). destruct (js_is_not_py _ _ (eq_sym E)).
Qed.

End Suffix.

Section Connect.

Variable env : Env.

(** [connectToServer] on a path it accepts, up to the answer of the
    listing. *)
Lemma connectToServer_accepted path s :
  endsWith path ".js" || endsWith path ".py" = true ->
  connectToServer env path s =
  match listTools env (events s ++ [EvConnect (transport_for env path)]) with
  | inr listed =>
      (Normal tt,
       {| client := {| transport := Some (transport_for env path);
                       tools := map to_Tool listed |};
          channel := Connected;
          events := events s ++
                    [EvConnect (transport_for env path); EvListTools;
                     EvLog "Connected to server with tools:"
                           (LogNames (map mcp_name listed))] |})
  | inl e =>
      (Throw e,
       {| client := {| transport := Some (transport_for env path);
                       tools := tools (client s) |};
          channel := Connected;
          events := events s ++
                    [EvConnect (transport_for env path); EvListTools;
                     EvLog "Failed to connect to MCP server: " (LogError e)] |})
  end.
Proof.
  intros Hok. unfold connectToServer. cbn [catch MonadExc_M].
  replace (negb (endsWith path ".js") && negb (endsWith path ".py")) with false
    by (rewrite <- negb_orb, Hok; reflexivity).
  fold (transport_for env path).
  rewrite !bind_run. cbn [set_transport mcp_connect]. rewrite !bind_run.
  unfold mcp_listTools, of_answer. cbn.
  destruct (listTools env _) as [e|listed]; cbn; unfold record; cbn.
  - rewrite <- !app_assoc. reflexivity.
  - rewrite <- !app_assoc. cbn. rewrite map_map. reflexivity.
Qed.

Lemma connectToServer_refused path s :
  endsWith path ".js" || endsWith path ".py" = false ->
  connectToServer env path s =
    (Throw InvalidScriptType,
     record (EvLog "Failed to connect to MCP server: " (LogError InvalidScriptType)) s).
Proof.
  intros Hno. apply orb_false_iff in Hno. destruct Hno as [Hjs Hpy].
  unfold connectToServer. cbn [catch MonadExc_M]. rewrite Hjs, Hpy. reflexivity.
Qed.

End Connect.

(** X1.  [connectToServer] attempts a connection exactly for the paths that
    end in [".js"] or [".py"]: for those, and only for those, it asks the
    tool-host client to connect over the transport built for the path and
    then to list the tools, and leaves one line on the console. *)
Theorem connectToServer_attempts_iff (env : Env) (path : string) (s : State) :
  (exists stem, path = (stem ++ ".js")%string \/ path = (stem ++ ".py")%string) <->
  (exists line,
     events (snd (connectToServer env path s)) =
       events s ++ [EvConnect (transport_for env path); EvListTools; line]).
Proof.
  destruct (endsWith path ".js" || endsWith path ".py") eqn:Hext.
  - split; intros _.
    + rewrite (connectToServer_accepted env path s Hext).
      destruct (listTools env _) as [e|listed]; eexists; reflexivity.
    + apply orb_true_iff in Hext.
      destruct Hext as [H|H]; apply endsWith_iff in H; destruct H as (stem & H);
        exists stem; auto.
  - split.
    + intros (stem & [H|H]); apply orb_false_iff in Hext; destruct Hext as [Hjs Hpy].
      * assert (E : endsWith path ".js" = true) by (apply endsWith_iff; eauto).
        congruence.
      * assert (E : endsWith path ".py" = true) by (apply endsWith_iff; eauto).
        congruence.
    + intros (line & H). rewrite (connectToServer_refused env path s Hext) in H.
      cbn [snd record events] in H. apply app_inv_head in H. discriminate.
Qed.

(** X2.  The command of the transport: for a path ending in [".py"] it is
    ["python"] on the platform ["win32"] and ["python3"] on any other; for
    a path ending in [".js"] it is the path of the running node binary.
    The path itself is the only argument.  The transport is stored in the
    client whether or not the listing that follows succeeds. *)
Theorem connectToServer_spawn_command (env : Env) (stem : string) (s : State) :
  transport (client (snd (connectToServer env (stem ++ ".py") s))) =
    Some {| command := if String.eqb (platform env) "win32" then "python" else "python3";
            args := [(stem ++ ".py")%string] |} /\
  transport (client (snd (connectToServer env (stem ++ ".js") s))) =
    Some {| command := execPath env; args := [(stem ++ ".js")%string] |}.
Proof.
  assert (Hpy : endsWith (stem ++ ".py") ".py" = true) by (apply endsWith_iff; eauto).
  assert (Hjs : endsWith (stem ++ ".js") ".js" = true) by (apply endsWith_iff; eauto).
  split.
  - rewrite connectToServer_accepted by (rewrite Hpy; apply orb_true_r).
    unfold transport_for. rewrite Hpy.
    destruct (listTools env _); reflexivity.
  - rewrite connectToServer_accepted by (rewrite Hjs; reflexivity).
    unfold transport_for. rewrite endsWith_js_not_py.
    destruct (listTools env _); reflexivity.
Qed.

(** X3.  When the listing succeeds, [connectToServer] returns normally and
    the catalog of the client is the listing translated tool by tool, in
    the same order, with name, description and schema carried over; it
    replaces whatever catalog the client held.  The names written to the
    console are the names listed. *)
Theorem connectToServer_catalog (env : Env) (path : string) (s : State)
        (listed : list McpTool) :
  endsWith path ".js" || endsWith path ".py" = true ->
  listTools env (events s ++ [EvConnect (transport_for env path)]) = inr listed ->
  let s' := snd (connectToServer env path s) in
  fst (connectToServer env path s) = Normal tt /\
  tools (client s') = map to_Tool listed /\
  map name (tools (client s')) = map mcp_name listed /\
  map description (tools (client s')) = map mcp_description listed /\
  map input_schema (tools (client s')) = map inputSchema listed /\
  channel s' = Connected /\
  events s' = events s ++
              [EvConnect (transport_for env path); EvListTools;
               EvLog "Connected to server with tools:" (LogNames (map mcp_name listed))].
Proof.
  intros Hext Hlist. cbv zeta.
  rewrite (connectToServer_accepted env path s Hext), Hlist. cbn.
  rewrite !map_map. repeat split; reflexivity.
Qed.

Lemma connectToServer_catalog_witness :
  let s' := snd (connectToServer Hosts.two_tools "weather.py" Hosts.connected) in
  listTools Hosts.two_tools
    (events Hosts.connected ++ [EvConnect (transport_for Hosts.two_tools "weather.py")])
    = inr [Hosts.weather; Hosts.alerts] /\
  map name (tools (client s')) = ["get_forecast"; "get_alerts"]%string /\
  command (transport_for Hosts.two_tools "weather.py") = "python"%string.
Proof.
  split; [reflexivity|]. split; [|reflexivity].
  exact (proj1 (proj2 (proj2 (connectToServer_catalog Hosts.two_tools "weather.py"
                                 Hosts.connected [Hosts.weather; Hosts.alerts]
                                 eq_refl eq_refl)))).
Defined.

(** X4.  When the listing is rejected, [connectToServer] throws that very
    error after writing it to the console.  The catalog is the one the
    client had before; the transport, however, has already been replaced
    and the connection requested. *)
Theorem connectToServer_listing_rejected (env : Env) (path : string) (s : State)
        (e : JsError) :
  endsWith path ".js" || endsWith path ".py" = true ->
  listTools env (events s ++ [EvConnect (transport_for env path)]) = inl e ->
  let s' := snd (connectToServer env path s) in
  fst (connectToServer env path s) = Throw e /\
  tools (client s') = tools (client s) /\
  transport (client s') = Some (transport_for env path) /\
  channel s' = Connected /\
  events s' = events s ++
              [EvConnect (transport_for env path); EvListTools;
               EvLog "Failed to connect to MCP server: " (LogError e)].
Proof.
  intros Hext Hlist. cbv zeta.
  rewrite (connectToServer_accepted env path s Hext), Hlist. cbn.
  repeat split; reflexivity.
Qed.

Lemma connectToServer_listing_rejected_witness :
  let s' := snd (connectToServer Hosts.unreachable "weather.py" Hosts.connected) in
  fst (connectToServer Hosts.unreachable "weather.py" Hosts.connected)
    = Throw Hosts.spawn_failed /\
  tools (client s') = [to_Tool Hosts.alerts] /\
  transport (client s') = Some {| command := "python3"; args := ["weather.py"%string] |}.
Proof.
  destruct (connectToServer_listing_rejected Hosts.unreachable "weather.py" Hosts.connected
              Hosts.spawn_failed eq_refl eq_refl) as (H1 & H2 & H3 & _).
  split; [exact H1|]. split; [exact H2 | exact H3].
Defined.

(** X5.  Connecting and then querying: after a successful
    [connectToServer] and any number of queries, the initial model call of
    a query carries the catalog built from the listing, and a single turn,
    the query itself. *)
Theorem connect_then_query (env : Env) (path : string) (s : State) (listed : list McpTool)
        (qs : list string) (q : string) :
  endsWith path ".js" || endsWith path ".py" = true ->
  listTools env (events s ++ [EvConnect (transport_for env path)]) = inr listed ->
  let s1 := after_queries env qs (snd (connectToServer env path s)) in
  exists rest,
    events (snd (processQuery env q s1)) =
      events s1 ++
      EvCreate {| p_model := MODEL; p_max_tokens := 1000;
                  p_messages := [ {| role := User; content := JString q |} ];
                  p_tools := Some (map to_Tool listed) |} :: rest.
Proof.
  intros Hext Hlist s1.
  destruct (processQuery_log env q s1) as (rest & E & _).
  exists rest. rewrite E. unfold s1. rewrite after_queries_client.
  rewrite (connectToServer_accepted env path s Hext), Hlist. reflexivity.
Qed.

Lemma connect_then_query_witness :
  let s1 := after_queries Hosts.two_tools ["hello"%string]
              (snd (connectToServer Hosts.two_tools "weather.js" Examples.fresh)) in
  exists rest,
    events (snd (processQuery Hosts.two_tools "weather in Paris?" s1)) =
      events s1 ++
      EvCreate {| p_model := MODEL; p_max_tokens := 1000;
                  p_messages := [ {| role := User; content := JString "weather in Paris?" |} ];
                  p_tools := Some [to_Tool Hosts.weather; to_Tool Hosts.alerts] |} :: rest.
Proof.
  exact (connect_then_query Hosts.two_tools "weather.js" Examples.fresh
           [Hosts.weather; Hosts.alerts] ["hello"%string] "weather in Paris?"
           eq_refl eq_refl).
Defined.

(** ** More on the requests and the result of a query *)

Section QueryRequests.

Variable env : Env.

Lemma emits_query_requests blocks : forall l,
  emits (fun ev => query_request ev /\ not_initial ev) (dispatch env blocks l).
Proof.
  induction blocks as [|b blocks IH]; intros l; cbn [dispatch].
  - apply emits_silent. reflexivity.
  - apply emits_bind; [|exact IH].
    destruct b as [t|i n a|ty]; cbn [dispatch_block];
      try (apply emits_silent; reflexivity).
    apply emits_bind.
    { intros s. exists [EvCallTool n a]. split; [apply callTool_log|].
      repeat constructor. }
    intros r. apply emits_bind.
    { intros s. eexists. split; [apply create_log|]. repeat constructor. }
    intros resp. apply emits_bind.
    { apply emits_silent. apply first_text_log. }
    intros t. apply emits_silent. reflexivity.
Qed.

(** Whatever the outcome of the loop, the tool calls made are the first
    few tool requests of the blocks, in their order. *)
Lemma dispatch_calls_prefix blocks : forall l s,
  exists new remaining,
    events (snd (dispatch env blocks l s)) = events s ++ new /\
    tool_uses blocks = calls_of new ++ remaining.
Proof.
  induction blocks as [|b blocks IH]; intros l s.
  - exists [], []. cbn. rewrite app_nil_r. split; reflexivity.
  - cbn [dispatch]. rewrite bind_run. destruct b as [t|i n a|ty].
    + cbn [dispatch_block ret Monad_M]. apply IH.
    + destruct (callTool env (events s) n a) as [e|r] eqn:Hcall.
      * cbn [dispatch_block]. rewrite bind_run, (callTool_fail env _ _ _ _ Hcall).
        exists [EvCallTool n a], (tool_uses blocks). split; reflexivity.
      * rewrite (dispatch_block_called env i n a l s r Hcall).
        set (p := followup_request (messages l ++ [user_turn (result_content r)])).
        destruct (messages_create env _ p) as [e|[[|b0 rest]]]; cbn [response_content].
        -- exists [EvCallTool n a; EvCreate p], (tool_uses blocks).
           split; [cbn; rewrite <- app_assoc; reflexivity | reflexivity].
        -- exists [EvCallTool n a; EvCreate p], (tool_uses blocks).
           split; [cbn; rewrite <- app_assoc; reflexivity | reflexivity].
        -- match goal with
           | |- context [dispatch env blocks ?l1 ?s1] =>
               destruct (IH l1 s1) as (new & remaining & E & P)
           end.
           exists (EvCallTool n a :: EvCreate p :: new), remaining. split.
           ++ rewrite E. cbn [record events]. rewrite <- !app_assoc. reflexivity.
           ++ cbn. fold (calls_of new). rewrite <- P. reflexivity.
    + cbn [dispatch_block ret Monad_M]. apply IH.
Qed.

Lemma replies_of_app new1 : forall log new2,
  replies_of env log (new1 ++ new2) =
  replies_of env log new1 ++ replies_of env (log ++ new1) new2.
Proof.
  induction new1 as [|ev new1 IH]; intros log new2.
  - cbn. rewrite app_nil_r. reflexivity.
  - cbn [app replies_of]. rewrite IH, <- !app_assoc. reflexivity.
Qed.


End QueryRequests.

(** X6.  What [processQuery] asks of the outside world: first the initial
    model call, and after it nothing but tool calls and model calls without
    a catalog, every model call with the same model and token budget.  It
    never lists tools, connects, closes the channel or writes to the
    console. *)
Theorem processQuery_requests (env : Env) (query : string) (s : State) :
  exists rest,
    events (snd (processQuery env query s)) =
      events s ++ EvCreate (initial_request query (tools (client s))) :: rest /\
    Forall (fun ev => match ev with
                      | EvCreate p =>
                          p_model p = MODEL /\ p_max_tokens p = 1000%Z /\ p_tools p = None
                      | EvCallTool _ _ => True
                      | _ => False
                      end) rest.
Proof.
  unfold processQuery. rewrite bind_run. cbn [get_client]. rewrite bind_run.
  change (mkParams MODEL 1000 _ (Some (tools (client s))))
    with (initial_request query (tools (client s))).
  pose proof (create_log env (initial_request query (tools (client s))) s) as Hlog.
  destruct (anthropic_messages_create env _ s) as [[resp|e] s1]; cbn [snd] in *.
  - rewrite bind_run.
    destruct (emits_query_requests env (response_content resp)
                {| messages := [ {| role := User; content := JString query |} ];
                   finalText := []; toolResults := [] |} s1) as (new & E & F).
    exists new. split.
    + destruct (dispatch env _ _ s1) as [[l'|e] s2]; cbn [snd] in E;
        cbn [ret Monad_M snd]; rewrite E, Hlog, <- app_assoc; reflexivity.
    + eapply Forall_impl; [|exact F].
      intros [p| | | | |] [Hq Hn]; cbn in *; tauto.
  - exists []. split; [exact Hlog | constructor].
Qed.

(** X7.  In every run of [processQuery], failed or not, the tool calls made
    are an initial segment of the tool requests of the initial response, in
    the order of the blocks: never more than requested, never out of
    order, and none is skipped before a later one is made. *)
Theorem processQuery_calls_prefix (env : Env) (query : string) (s : State)
        (resp : Message) (new : list Event) :
  messages_create env (events s) (initial_request query (tools (client s))) = inr resp ->
  events (snd (processQuery env query s)) = events s ++ new ->
  exists remaining, tool_uses (response_content resp) = calls_of new ++ remaining.
Proof.
  intros Hresp Hlog. unfold processQuery in Hlog.
  rewrite bind_run in Hlog. cbn [get_client] in Hlog. rewrite bind_run in Hlog.
  change (mkParams MODEL 1000 _ (Some (tools (client s))))
    with (initial_request query (tools (client s))) in Hlog.
  rewrite (create_ok env _ _ _ Hresp), bind_run in Hlog.
  match type of Hlog with
  | context [dispatch env ?blocks ?l1 ?s1] =>
      destruct (dispatch_calls_prefix env blocks l1 s1) as (new1 & remaining & E & P);
      assert (Hnew : events s ++ new = events s1 ++ new1)
        by (rewrite <- E, <- Hlog; destruct (dispatch env blocks l1 s1) as [[?|?] ?];
            reflexivity)
  end.
  cbn [record events] in Hnew. rewrite <- app_assoc in Hnew.
  apply app_inv_head in Hnew. subst new.
  exists remaining. exact P.
Qed.

Lemma processQuery_calls_prefix_witness :
  let run := processQuery Examples.failing_host "list and read" Examples.fresh in
  events (snd run) =
    [] ++ [EvCreate (initial_request "list and read" []); EvCallTool "ls" (JObject [])] /\
  exists remaining,
    [("ls"%string, JObject []); ("cat"%string, JObject [])] =
    calls_of [EvCreate (initial_request "list and read" []); EvCallTool "ls" (JObject [])]
      ++ remaining.
Proof.
  split; [reflexivity|].
  exact (processQuery_calls_prefix Examples.failing_host "list and read" Examples.fresh
           {| response_content :=
                [TextBlock "Looking."; ToolUseBlock "toolu_1" "ls" (JObject []);
                 ToolUseBlock "toolu_2" "cat" (JObject [])] |}
           [EvCreate (initial_request "list and read" []); EvCallTool "ls" (JObject [])]
           eq_refl eq_refl).
Defined.



(** ** The HTTP handlers *)

Section HandlerFacts.

Variable env : Env.

(** On a string, [processQuery_value] is [processQuery]. *)
Lemma processQuery_value_string (q : string) :
  processQuery_value env (JString q) = processQuery env q.
Proof. reflexivity. Qed.

Lemma only_logs_processQuery_value q : only_logs (processQuery_value env q).
Proof.
  unfold processQuery_value.
  apply only_logs_bind; [intros s; split; reflexivity | intros this].
  apply only_logs_bind; [apply only_logs_create | intros resp].
  apply only_logs_bind; [apply only_logs_dispatch | intros l'].
  apply only_logs_ret.
Qed.

(** [chatHandler] on a body that holds a truthy query, up to the outcome of
    [processQuery]. *)
Lemma chatHandler_query body q s :
  requested_query body = Some q ->
  chatHandler env body s =
  match processQuery_value env q s with
  | (Normal text, s') => (Normal (answered text), s')
  | (Throw e, s') =>
      (Normal failed_to_process, record (EvLog "Error processing query:" (LogError e)) s')
  end.
Proof.
  intros Hq. unfold requested_query in Hq.
  destruct body as [[| | | | |members]|]; try discriminate.
  destruct (get_property "query" members) as [q'|] eqn:Hget; [|discriminate].
  destruct (truthy q') eqn:Ht; [|discriminate]. injection Hq as ->.
  unfold chatHandler. cbn [catch MonadExc_M destructure_query].
  rewrite bind_run. cbn [ret Monad_M]. rewrite Hget, Ht. cbn [negb].
  rewrite bind_run.
  destruct (processQuery_value env q s) as [[text|e] s']; reflexivity.
Qed.

(** [chatHandler] on a body that is a value, not [null], without a truthy
    query. *)
Lemma chatHandler_no_query body s :
  body <> None -> body <> Some JNull -> requested_query body = None ->
  chatHandler env body s = (Normal query_required, s).
Proof.
  intros Hdef Hnull Hq. unfold chatHandler. cbn [catch MonadExc_M].
  destruct body as [[| | | | |members]|]; try contradiction; try reflexivity.
  unfold requested_query in Hq. rewrite bind_run. cbn [destructure_query ret Monad_M].
  destruct (get_property "query" members) as [q|]; [|reflexivity].
  destruct (truthy q); [discriminate | reflexivity].
Qed.

Lemma only_logs_chatHandler body : only_logs (chatHandler env body).
Proof.
  intros s.
  destruct (requested_query body) as [q|] eqn:Hq.
  - rewrite (chatHandler_query body q s Hq).
    destruct (only_logs_processQuery_value q s) as [H1 H2].
    destruct (processQuery_value env q s) as [[text|e] s']; split; assumption.
  - destruct body as [[| | | | |members]|];
      try (rewrite chatHandler_no_query by (discriminate || assumption);
           split; reflexivity);
      split; reflexivity.
Qed.

Lemma after_chats_only_logs bodies : forall s,
  client (after_chats env bodies s) = client s /\
  channel (after_chats env bodies s) = channel s.
Proof.
  induction bodies as [|body bodies IH]; intros s; [split; reflexivity|].
  unfold after_chats in *. cbn [fold_left].
  destruct (IH (snd (chatHandler env body s))) as [H1 H2].
  destruct (only_logs_chatHandler body s) as [H3 H4].
  split; congruence.
Qed.

End HandlerFacts.

(** X9.  [chatHandler] never throws: it always ends by sending one of
    three answers, 400 "Query is required", 500 "Failed to process query",
    or 200 with the text of the answer.  The answer is 200 exactly when
    the body holds a truthy query and [processQuery] returns normally on
    it, and then carries the returned text. *)
Theorem chatHandler_answers (env : Env) (body : option Json) (s : State) :
  exists r,
    fst (chatHandler env body s) = Normal r /\
    (r = {| status := 400; json := JObject [("error"%string, JString "Query is required")] |} \/
     r = {| status := 500;
            json := JObject [("error"%string, JString "Failed to process query")] |} \/
     exists text,
       r = {| status := 200; json := JObject [("response"%string, JString text)] |}) /\
    (status r = 200%Z <->
     exists q text,
       requested_query body = Some q /\
       fst (processQuery_value env q s) = Normal text /\
       r = {| status := 200; json := JObject [("response"%string, JString text)] |}).
Proof.
  destruct (requested_query body) as [q|] eqn:Hq.
  - rewrite (chatHandler_query env body q s Hq).
    destruct (processQuery_value env q s) as [[text|e] s'] eqn:Hrun; cbn [fst].
    + exists (answered text). split; [reflexivity|].
      split; [right; right; exists text; reflexivity|].
      split; [intros _; exists q, text; rewrite Hrun; repeat split; reflexivity
             | reflexivity].
    + exists failed_to_process. split; [reflexivity|].
      split; [right; left; reflexivity|].
      split; [discriminate|]. intros (q' & text & Hq' & Hn & _).
      injection Hq' as <-. rewrite Hrun in Hn. discriminate.
  - assert (H : fst (chatHandler env body s) = Normal query_required \/
                fst (chatHandler env body s) = Normal failed_to_process).
    { destruct body as [[| | | | |members]|];
        try (left; rewrite chatHandler_no_query by (discriminate || assumption);
             reflexivity);
        right; reflexivity. }
    destruct H as [H|H]; rewrite H; eexists; (split; [reflexivity|]);
      (split; [first [left; reflexivity | right; left; reflexivity]|]);
      (split; [discriminate|]);
      intros (q' & text & Hq' & _); discriminate.
Qed.

(** X10.  A request whose body is a JSON value other than [null] and holds
    no truthy [query] (no such property, or [null], [false], [0] or the
    empty string; or a body that is not an object) is answered with 400,
    and nothing else happens: no model call, no tool call, no console
    output. *)
Theorem chatHandler_query_required (env : Env) (body : Json) (s : State) :
  body <> JNull ->
  requested_query (Some body) = None ->
  chatHandler env (Some body) s =
    (Normal {| status := 400;
               json := JObject [("error"%string, JString "Query is required")] |},
     s).
Proof.
  intros Hnull Hq. apply chatHandler_no_query; [discriminate| |exact Hq].
  intros H. injection H as ->. contradiction.
Qed.

Lemma chatHandler_query_required_witness :
  requested_query (Some (JObject [("query"%string, JString EmptyString)])) = None /\
  chatHandler Examples.arithmetic (Some (JObject [("query"%string, JString EmptyString)]))
    Examples.fresh =
    (Normal {| status := 400;
               json := JObject [("error"%string, JString "Query is required")] |},
     Examples.fresh).
Proof.
  split; [reflexivity|].
  apply chatHandler_query_required; [discriminate | reflexivity].
Defined.

(** X11.  A request with a query string: the handler runs [processQuery] on
    it.  If that returns a text, the answer is 200 with that text and
    the state is the one [processQuery] left.  If it throws, the answer is
    the fixed 500 body, which says nothing of the error; the error goes to
    the console, after the requests of the query. *)
Theorem chatHandler_runs_query (env : Env) (body : option Json) (q : string) (s : State) :
  requested_query body = Some (JString q) ->
  (forall text s', processQuery env q s = (Normal text, s') ->
     chatHandler env body s =
       (Normal {| status := 200; json := JObject [("response"%string, JString text)] |},
        s')) /\
  (forall e s', processQuery env q s = (Throw e, s') ->
     chatHandler env body s =
       (Normal {| status := 500;
                  json := JObject [("error"%string, JString "Failed to process query")] |},
        {| client := client s'; channel := channel s';
           events := events s' ++ [EvLog "Error processing query:" (LogError e)] |})).
Proof.
  intros Hq. rewrite (chatHandler_query env body _ s Hq), processQuery_value_string.
  split; intros ? s' Hrun; rewrite Hrun; reflexivity.
Qed.

Lemma chatHandler_runs_query_witness :
  let body := Some (JObject [("query"%string, JString "list and read")]) in
  requested_query body = Some (JString "list and read") /\
  fst (chatHandler Examples.failing_host body Examples.fresh) =
    Normal {| status := 500;
              json := JObject [("error"%string, JString "Failed to process query")] |} /\
  fst (chatHandler Examples.arithmetic body Examples.fresh) =
    Normal {| status := 200; json := JObject [("response"%string, JString "4")] |}.
Proof.
  intros body. split; [reflexivity|]. split.
  - rewrite (proj2 (chatHandler_runs_query Examples.failing_host body "list and read"
                      Examples.fresh eq_refl)
                   Examples.host_down
                   (snd (processQuery Examples.failing_host "list and read" Examples.fresh))
                   eq_refl).
    reflexivity.
  - rewrite (proj1 (chatHandler_runs_query Examples.arithmetic body "list and read"
                      Examples.fresh eq_refl)
                   "4"%string
                   (snd (processQuery Examples.arithmetic "list and read" Examples.fresh))
                   eq_refl).
    reflexivity.
Defined.

(** X13.  [healthCheck] answers 200 with the names of the cached catalog
    and asks nothing of anyone.  After a successful [connectToServer] and
    any number of chat requests, the names it reports are the names the
    tool host listed, in the order of the listing. *)
Theorem healthCheck_reports_listing (env : Env) (path : string) (s : State)
        (listed : list McpTool) (bodies : list (option Json)) :
  endsWith path ".js" || endsWith path ".py" = true ->
  listTools env (events s ++ [EvConnect (transport_for env path)]) = inr listed ->
  let s1 := after_chats env bodies (snd (connectToServer env path s)) in
  healthCheck s1 =
    (Normal {| status := 200;
               json := JObject [("status"%string, JString "ok");
                                ("tools"%string,
                                 JArray (map (fun t => JString (mcp_name t)) listed))] |},
     s1).
Proof.
  intros Hext Hlist s1. unfold healthCheck. rewrite bind_run. cbn [get_client ret Monad_M].
  unfold s1. rewrite (proj1 (after_chats_only_logs env bodies _)).
  rewrite (connectToServer_accepted env path s Hext), Hlist.
  cbn [snd client tools]. rewrite map_map. reflexivity.
Qed.

Lemma healthCheck_reports_listing_witness :
  let s1 := after_chats Hosts.two_tools
              [Some (JObject [("query"%string, JString "weather?")]); None]
              (snd (connectToServer Hosts.two_tools "weather.py" Examples.fresh)) in
  fst (healthCheck s1) =
    Normal {| status := 200;
              json := JObject [("status"%string, JString "ok");
                               ("tools"%string,
                                JArray [JString "get_forecast"; JString "get_alerts"])] |}.
Proof.
  intros s1. unfold s1.
  rewrite (healthCheck_reports_listing Hosts.two_tools "weather.py" Examples.fresh
             [Hosts.weather; Hosts.alerts]
             [Some (JObject [("query"%string, JString "weather?")]); None]
             eq_refl eq_refl).
  reflexivity.
Defined.

(** X14.  A request whose body is [undefined] or [null] is answered with
    500, not 400: destructuring the body throws inside the [try] block.
    The [TypeError] goes to the console and no model call is made. *)
Theorem chatHandler_without_body (env : Env) (body : option Json) (s : State) :
  body = None \/ body = Some JNull ->
  exists e,
    err_name e = "TypeError"%string /\
    chatHandler env body s =
      (Normal {| status := 500;
                 json := JObject [("error"%string, JString "Failed to process query")] |},
       {| client := client s; channel := channel s;
          events := events s ++ [EvLog "Error processing query:" (LogError e)] |}).
Proof.
  intros [-> | ->]; eexists; (split; [|reflexivity]); reflexivity.
Qed.

Lemma chatHandler_without_body_witness :
  fst (chatHandler Examples.arithmetic None Examples.fresh) =
    Normal {| status := 500;
              json := JObject [("error"%string, JString "Failed to process query")] |}.
Proof.
  destruct (chatHandler_without_body Examples.arithmetic None Examples.fresh (or_introl eq_refl))
    as (e & _ & H).
  rewrite H. reflexivity.
Defined.

(** X15.  [cleanup] leaves the fields of the client alone, the transport
    and the catalog included, and makes at most one request, a close.
    Nothing in [processQuery] looks at the channel: a query made after
    [cleanup] still starts with the model call that carries the catalog. *)
Theorem cleanup_keeps_client (env : Env) (q : string) (s : State) :
  let s1 := snd (cleanup env s) in
  client s1 = client s /\
  (events s1 = events s \/ events s1 = events s ++ [EvClose]) /\
  exists rest,
    events (snd (processQuery env q s1)) =
      events s1 ++ EvCreate (initial_request q (tools (client s))) :: rest.
Proof.
  cbv zeta.
  assert (H : client (snd (cleanup env s)) = client s /\
              (events (snd (cleanup env s)) = events s \/
               events (snd (cleanup env s)) = events s ++ [EvClose])).
  { unfold cleanup, mcp_close.
    destruct (channel s); try (split; [reflexivity | left; reflexivity]);
      destruct (close_channel env (events s)); split; auto. }
  destruct H as [Hc He]. split; [exact Hc|]. split; [exact He|].
  destruct (processQuery_log env q (snd (cleanup env s))) as (rest & E & _).
  exists rest. rewrite E, Hc. reflexivity.
Qed.
